(** * PowerCalc integration: setup, unload and removal of config entries

    A shallow embedding of [custom_components/powercalc/__init__.py].
    Python dicts are finite maps, [hass] is an explicit state threaded
    through a small state-and-exception monad, and every call into Home
    Assistant that the module only triggers (service calls, platform loads,
    reloads, bus listeners) is recorded in that state in program order. *)

From stdpp Require Import gmap strings list fin_maps.
From Stdlib Require Import ZArith QArith.

Local Open Scope Z_scope.
Local Open Scope string_scope.
Local Open Scope list_scope.

(** ** Configuration values *)

(** [datetime.timedelta], kept as its total number of microseconds. *)
Definition timedelta := Z.

Definition timedelta_minutes (n : Z) : timedelta := n * 60 * 1000000.
Definition timedelta_hours (n : Z) : timedelta := n * 3600 * 1000000.

(** Modelled from the spec: [const.UnitPrefix] is not part of the sources at
    hand; the spec names the energy units Wh and kWh, that is no prefix and
    kilo. *)
Inductive UnitPrefix := NONE | KILO.

(** Modelled from the spec: the members of [const.ENERGY_INTEGRATION_METHODS]
    are not part of the sources at hand; the spec names left Riemann and
    trapezoidal integration. *)
Inductive IntegrationMethod := LEFT | TRAPEZOIDAL.

(** The values a validated powercalc block holds. *)
Inductive Value :=
| VNone
| VBool (b : bool)
| VInt (n : Z)
| VStr (s : string)
| VTimedelta (td : timedelta)
| VList (l : list string)
| VUnitPrefix (p : UnitPrefix)
| VMethod (m : IntegrationMethod).

#[global] Instance UnitPrefix_eq_dec : EqDecision UnitPrefix.
Proof. solve_decision. Defined.
#[global] Instance IntegrationMethod_eq_dec : EqDecision IntegrationMethod.
Proof. solve_decision. Defined.
#[global] Instance Value_eq_dec : EqDecision Value.
Proof. solve_decision. Defined.

(** Python truthiness, as used by [x or y] and [if x]. *)
Definition truthy (v : Value) : bool :=
  match v with
  | VNone => false
  | VBool b => b
  | VInt n => negb (Z.eqb n 0)
  | VStr s => negb (String.eqb s "")
  | VTimedelta td => negb (Z.eqb td 0)
  | VList l => negb (bool_decide (l = []))
  | VUnitPrefix _ => true
  | VMethod _ => true
  end.

(** The option names of the powercalc block.  The strings behind the
    [CONF_*] constants live in [const.py] and in Home Assistant; the module
    only ever uses the constants, which are pairwise distinct keys. *)
Inductive conf_key :=
| CONF_SCAN_INTERVAL
| CONF_FORCE_UPDATE_FREQUENCY
| CONF_POWER_SENSOR_NAMING
| CONF_POWER_SENSOR_FRIENDLY_NAMING
| CONF_POWER_SENSOR_CATEGORY
| CONF_ENERGY_SENSOR_NAMING
| CONF_ENERGY_SENSOR_FRIENDLY_NAMING
| CONF_ENERGY_SENSOR_CATEGORY
| CONF_DISABLE_EXTENDED_ATTRIBUTES
| CONF_ENABLE_AUTODISCOVERY
| CONF_CREATE_ENERGY_SENSORS
| CONF_CREATE_UTILITY_METERS
| CONF_UTILITY_METER_TARIFFS
| CONF_UTILITY_METER_TYPES
| CONF_UTILITY_METER_OFFSET
| CONF_ENERGY_INTEGRATION_METHOD
| CONF_ENERGY_SENSOR_PRECISION
| CONF_POWER_SENSOR_PRECISION
| CONF_ENERGY_SENSOR_UNIT_PREFIX
| CONF_CREATE_DOMAIN_GROUPS
| CONF_IGNORE_UNAVAILABLE_STATE.

#[global] Instance conf_key_eq_dec : EqDecision conf_key.
Proof. solve_decision. Defined.

Definition conf_key_to_nat (k : conf_key) : nat :=
  match k with
  | CONF_SCAN_INTERVAL => 0
  | CONF_FORCE_UPDATE_FREQUENCY => 1
  | CONF_POWER_SENSOR_NAMING => 2
  | CONF_POWER_SENSOR_FRIENDLY_NAMING => 3
  | CONF_POWER_SENSOR_CATEGORY => 4
  | CONF_ENERGY_SENSOR_NAMING => 5
  | CONF_ENERGY_SENSOR_FRIENDLY_NAMING => 6
  | CONF_ENERGY_SENSOR_CATEGORY => 7
  | CONF_DISABLE_EXTENDED_ATTRIBUTES => 8
  | CONF_ENABLE_AUTODISCOVERY => 9
  | CONF_CREATE_ENERGY_SENSORS => 10
  | CONF_CREATE_UTILITY_METERS => 11
  | CONF_UTILITY_METER_TARIFFS => 12
  | CONF_UTILITY_METER_TYPES => 13
  | CONF_UTILITY_METER_OFFSET => 14
  | CONF_ENERGY_INTEGRATION_METHOD => 15
  | CONF_ENERGY_SENSOR_PRECISION => 16
  | CONF_POWER_SENSOR_PRECISION => 17
  | CONF_ENERGY_SENSOR_UNIT_PREFIX => 18
  | CONF_CREATE_DOMAIN_GROUPS => 19
  | CONF_IGNORE_UNAVAILABLE_STATE => 20
  end%nat.

Definition all_conf_keys : list conf_key :=
  [ CONF_SCAN_INTERVAL; CONF_FORCE_UPDATE_FREQUENCY; CONF_POWER_SENSOR_NAMING;
    CONF_POWER_SENSOR_FRIENDLY_NAMING; CONF_POWER_SENSOR_CATEGORY;
    CONF_ENERGY_SENSOR_NAMING; CONF_ENERGY_SENSOR_FRIENDLY_NAMING;
    CONF_ENERGY_SENSOR_CATEGORY; CONF_DISABLE_EXTENDED_ATTRIBUTES;
    CONF_ENABLE_AUTODISCOVERY; CONF_CREATE_ENERGY_SENSORS;
    CONF_CREATE_UTILITY_METERS; CONF_UTILITY_METER_TARIFFS;
    CONF_UTILITY_METER_TYPES; CONF_UTILITY_METER_OFFSET;
    CONF_ENERGY_INTEGRATION_METHOD; CONF_ENERGY_SENSOR_PRECISION;
    CONF_POWER_SENSOR_PRECISION; CONF_ENERGY_SENSOR_UNIT_PREFIX;
    CONF_CREATE_DOMAIN_GROUPS; CONF_IGNORE_UNAVAILABLE_STATE ].

Definition conf_key_of_nat (n : nat) : option conf_key := all_conf_keys !! n.

#[global] Instance conf_key_countable : Countable conf_key :=
  inj_countable conf_key_to_nat conf_key_of_nat
    ltac:(intros []; reflexivity).

(** A powercalc block: the dict below the [powercalc:] key. *)
Abbreviation Block := (gmap conf_key Value).

(** The whole configuration handed to [async_setup].  Only [config.get(DOMAIN)]
    is read; CONFIG_SCHEMA guarantees that entry to be a dict. *)
Abbreviation Config := (gmap string Block).

(** Truthiness of a dict: an empty dict is falsy. *)
Definition dict_truthy (b : Block) : bool := negb (bool_decide (b = ∅)).

(** [d.get(k)] followed by a truth test; a missing key yields [None]. *)
Definition get_truthy (b : Block) (k : conf_key) : bool :=
  match b !! k with
  | Some v => truthy v
  | None => false
  end.

(** ** Constants of the integration and of the host *)

(** Modelled from the spec: [const.DOMAIN] is not part of the sources at
    hand; the integration is the package [custom_components/powercalc], and
    Home Assistant requires an integration's domain to be its package name. *)
Definition DOMAIN : string := "powercalc".

(** Modelled from the spec: [const.DEFAULT_ENERGY_SENSOR_PRECISION] is not
    part of the sources at hand; "energy sensor decimal precision (default 4)". *)
Definition DEFAULT_ENERGY_SENSOR_PRECISION : Z := 4.

(** Modelled from the spec: [const.DEFAULT_POWER_SENSOR_PRECISION] is not
    part of the sources at hand; "power sensor decimal precision (default 2)". *)
Definition DEFAULT_POWER_SENSOR_PRECISION : Z := 2.

(** Modelled from the spec: [const.DEFAULT_ENERGY_INTEGRATION_METHOD] is not
    part of the sources at hand; "integration method (default left Riemann)". *)
Definition DEFAULT_ENERGY_INTEGRATION_METHOD : IntegrationMethod := LEFT.

(** Modelled from the spec: [const.DEFAULT_UPDATE_FREQUENCY] is not part of
    the sources at hand; "force-update interval (default 10 minutes)". *)
Definition DEFAULT_UPDATE_FREQUENCY : timedelta := timedelta_minutes 10.

(** The remaining constants the module imports, about which neither the
    sources at hand nor the spec say anything, and the host's version with
    its comparison ([AwesomeVersion.__lt__]).  Every definition below is
    parametric in them. *)
Record Constants := {
  MIN_HA_VERSION : string;
  HA_VERSION : string;
  AwesomeVersion_lt : string → string → bool;
  DEFAULT_POWER_NAME_PATTERN : string;
  DEFAULT_ENERGY_NAME_PATTERN : string;
  DEFAULT_ENTITY_CATEGORY : Value;
  DEFAULT_OFFSET : timedelta;
  DEFAULT_UTILITY_METER_TYPES : list string;
}.

(** ** The state of the host *)

Inductive Platform := Platform_SENSOR.

Definition PLATFORMS : list Platform := [Platform_SENSOR].

(** [homeassistant.components.sensor.DOMAIN]. *)
Definition SENSOR_DOMAIN : string := "sensor".

Inductive ConfigEntryState :=
| LOADED | SETUP_ERROR | MIGRATION_ERROR | SETUP_RETRY | NOT_LOADED | FAILED_UNLOAD.

(** [const.SensorType]: the two members the module names, and any other
    value an entry may carry under [CONF_SENSOR_TYPE]. *)
Inductive SensorType := VIRTUAL_POWER | GROUP | OTHER_SENSOR (name : string).

#[global] Instance ConfigEntryState_eq_dec : EqDecision ConfigEntryState.
Proof. solve_decision. Defined.
#[global] Instance SensorType_eq_dec : EqDecision SensorType.
Proof. solve_decision. Defined.

(** [ConfigEntry.data], restricted to the keys that removal looks at. *)
Record EntryData := {
  sensor_type : option SensorType;      (* data.get(CONF_SENSOR_TYPE) *)
  group : option string;                (* the group a power sensor refers to *)
  member_sensors : list string;         (* the power sensors of a group entry *)
}.

Record ConfigEntry := {
  entry_id : string;
  unique_id : option string;
  state : ConfigEntryState;
  data : EntryData;
}.

Inductive PowercalcDiscoveryType := DOMAIN_GROUP.

(** The discovery info passed to [async_load_platform]. *)
Record DiscoveryInfo := {
  discovery_type : PowercalcDiscoveryType;   (* DISCOVERY_TYPE *)
  conf_entities : list string;               (* CONF_ENTITIES *)
  conf_domain : string;                      (* CONF_DOMAIN *)
}.

(** What [hass.async_create_task] was given. *)
Inductive Task :=
| ServiceCall (domain service : string) (service_data : gmap string string)
| LoadPlatform (component platform : string) (discovered : DiscoveryInfo)
    (hass_config : Block).

Inductive Event := EVENT_HOMEASSISTANT_STARTED.

(** The closure [_create_domain_groups] of [async_setup]; it captures
    [domain_config]. *)
Inductive Callback := create_domain_groups_callback (domain_config : Block).

Inductive LogLevel := DEBUG | ERROR | CRITICAL.

(** [PowerCalculatorStrategyFactory(hass)], an opaque object here. *)
Inductive StrategyFactory := PowerCalculatorStrategyFactory.

(** [hass.data[DOMAIN]]: a dict with six fixed keys. *)
Record PowercalcData := {
  calculator_factory : StrategyFactory;            (* DATA_CALCULATOR_FACTORY *)
  domain_config : Block;                           (* DOMAIN_CONFIG *)
  configured_entities : gmap string (list string); (* DATA_CONFIGURED_ENTITIES *)
  domain_entities : gmap string (list string);     (* DATA_DOMAIN_ENTITIES *)
  discovered_entities : gmap string (list string); (* DATA_DISCOVERED_ENTITIES *)
  used_unique_ids : list string;                   (* DATA_USED_UNIQUE_IDS *)
}.

Record HomeAssistant := {
  hass_data : option PowercalcData;        (* hass.data.get(DOMAIN) *)
  hass_tasks : list Task;                  (* hass.async_create_task, oldest first *)
  hass_listeners : list (Event * Callback);(* hass.bus.async_listen_once *)
  hass_discoveries : list Config;          (* DiscoveryManager(..).start_discovery() *)
  hass_entries : list ConfigEntry;         (* hass.config_entries *)
  hass_reloads : list string;              (* hass.config_entries.async_reload *)
  logger : list (LogLevel * string);       (* _LOGGER, oldest first *)
}.

(** ** A state-and-exception monad over [hass] *)

Inductive Exception := KeyError | ValueError | TypeError.

Inductive Result (A : Type) :=
| Ok (a : A)
| Raise (e : Exception).
Arguments Ok {A} a.
Arguments Raise {A} e.

Definition M (A : Type) : Type := HomeAssistant → Result A * HomeAssistant.

Definition ret {A} (a : A) : M A := λ hass, (Ok a, hass).

Definition raise {A} (e : Exception) : M A := λ hass, (Raise e, hass).

Definition bind {A B} (m : M A) (k : A → M B) : M B :=
  λ hass,
    match m hass with
    | (Ok a, hass') => k a hass'
    | (Raise e, hass') => (Raise e, hass')
    end.

Notation "'let*' x ':=' m 'in' k" := (bind m (λ x, k))
  (at level 10, x name, m at level 100, k at level 200, only parsing).
Notation "'run' m 'then' k" := (bind m (λ _, k))
  (at level 10, m at level 100, k at level 200, only parsing).

(** [for x in l: body(x)] *)
Fixpoint for_each {A} (l : list A) (body : A → M unit) : M unit :=
  match l with
  | [] => ret tt
  | x :: l' => run body x then for_each l' body
  end.

(** [_LOGGER.<level>(message)] *)
Definition log (level : LogLevel) (message : string) : M unit :=
  λ hass,
    (Ok tt,
     {| hass_data := hass_data hass;
        hass_tasks := hass_tasks hass;
        hass_listeners := hass_listeners hass;
        hass_discoveries := hass_discoveries hass;
        hass_entries := hass_entries hass;
        hass_reloads := hass_reloads hass;
        logger := logger hass ++ [(level, message)] |}).

(** [hass.async_create_task(task)]: the task is scheduled, not run. *)
Definition async_create_task (task : Task) : M unit :=
  λ hass,
    (Ok tt,
     {| hass_data := hass_data hass;
        hass_tasks := hass_tasks hass ++ [task];
        hass_listeners := hass_listeners hass;
        hass_discoveries := hass_discoveries hass;
        hass_entries := hass_entries hass;
        hass_reloads := hass_reloads hass;
        logger := logger hass |}).

(** [hass.bus.async_listen_once(event, callback)] *)
Definition async_listen_once (event : Event) (callback : Callback) : M unit :=
  λ hass,
    (Ok tt,
     {| hass_data := hass_data hass;
        hass_tasks := hass_tasks hass;
        hass_listeners := hass_listeners hass ++ [(event, callback)];
        hass_discoveries := hass_discoveries hass;
        hass_entries := hass_entries hass;
        hass_reloads := hass_reloads hass;
        logger := logger hass |}).

(** [await DiscoveryManager(hass, config).start_discovery()].  The discovery
    manager lives in [discovery.py]; the call is recorded with the
    configuration it was given. *)
Definition start_discovery (config : Config) : M unit :=
  λ hass,
    (Ok tt,
     {| hass_data := hass_data hass;
        hass_tasks := hass_tasks hass;
        hass_listeners := hass_listeners hass;
        hass_discoveries := hass_discoveries hass ++ [config];
        hass_entries := hass_entries hass;
        hass_reloads := hass_reloads hass;
        logger := logger hass |}).

(** [await hass.config_entries.async_reload(entry_id)] *)
Definition async_reload (id : string) : M unit :=
  λ hass,
    (Ok tt,
     {| hass_data := hass_data hass;
        hass_tasks := hass_tasks hass;
        hass_listeners := hass_listeners hass;
        hass_discoveries := hass_discoveries hass;
        hass_entries := hass_entries hass;
        hass_reloads := hass_reloads hass ++ [id];
        logger := logger hass |}).

(** [hass.data[DOMAIN]]: a [KeyError] before [async_setup] has stored it. *)
Definition get_data : M PowercalcData :=
  λ hass,
    match hass_data hass with
    | Some d => (Ok d, hass)
    | None => (Raise KeyError, hass)
    end.

(** [hass.data[DOMAIN] = d], and in-place updates of that dict. *)
Definition set_data (d : PowercalcData) : M unit :=
  λ hass,
    (Ok tt,
     {| hass_data := Some d;
        hass_tasks := hass_tasks hass;
        hass_listeners := hass_listeners hass;
        hass_discoveries := hass_discoveries hass;
        hass_entries := hass_entries hass;
        hass_reloads := hass_reloads hass;
        logger := logger hass |}).

(** [hass.config_entries.async_entries(DOMAIN)] and the replacement of the
    registered entries after [async_update_entry]. *)
Definition get_entries : M (list ConfigEntry) := λ hass, (Ok (hass_entries hass), hass).

Definition set_entries (es : list ConfigEntry) : M unit :=
  λ hass,
    (Ok tt,
     {| hass_data := hass_data hass;
        hass_tasks := hass_tasks hass;
        hass_listeners := hass_listeners hass;
        hass_discoveries := hass_discoveries hass;
        hass_entries := es;
        hass_reloads := hass_reloads hass;
        logger := logger hass |}).

(** ** [_notify_message] *)

Definition _notify_message (notification_id title message : string) : M unit :=
  async_create_task
    (ServiceCall "persistent_notification" "create"
       (<["title" := title]>
          (<["message" := message]>
             (<["notification_id" := DOMAIN +:+ "." +:+ notification_id]> ∅)))).

(** ** [create_domain_groups] *)

(** One iteration of the loop over [domains]. *)
Definition create_domain_group (global_config : Block) (domain : string) : M unit :=
  let* d := get_data in
  match domain_entities d !! domain with
  | None =>
      log ERROR ("Cannot setup group for domain " +:+ domain +:+ ", no entities found")
  | Some entities =>
      async_create_task
        (LoadPlatform SENSOR_DOMAIN DOMAIN
           {| discovery_type := DOMAIN_GROUP;
              conf_entities := entities;
              conf_domain := domain |}
           global_config)
  end.

Definition create_domain_groups (global_config : Block) (domains : list string) : M unit :=
  run log DEBUG "Setting up domain based group sensors.." then
  for_each domains (create_domain_group global_config).

(** Running the listener [_create_domain_groups]: it passes
    [domain_config.get(CONF_CREATE_DOMAIN_GROUPS)] as the domains; iterating
    anything but a list of strings is a [TypeError] here. *)
Definition run_callback (cb : Callback) : M unit :=
  match cb with
  | create_domain_groups_callback domain_config =>
      match domain_config !! CONF_CREATE_DOMAIN_GROUPS with
      | Some (VList domains) => create_domain_groups domain_config domains
      | _ => raise TypeError
      end
  end.

(** ** CONFIG_SCHEMA *)

(** The containers [vol.In] is given. *)
Inductive Container :=
| ENTITY_CATEGORIES | METER_TYPES | ENERGY_INTEGRATION_METHODS | UnitPrefix_values.

(** The validators the schema names.  They belong to voluptuous, to Home
    Assistant and to [common.py]; the schema is kept as the data it is. *)
Inductive Validator :=
| cv_time_period
| cv_positive_timedelta
| max_28_days
| cv_boolean
| cv_string
| cv_ensure_list
| cv_positive_int
| validate_name_pattern
| vol_In (c : Container)
| vol_Each (v : Validator)            (* [v] as a one-element list schema *)
| vol_All (vs : list Validator).

(** [vol.Optional(key, default=...): validator]; [None] is no default. *)
Record Optional := {
  schema_key : conf_key;
  key_default : option Value;
  validator : Validator;
}.

(** voluptuous inserts the default of every key that has one and is missing
    from the validated dict; nothing is inserted for a key without default. *)
Definition insert_default (b : Block) (o : Optional) : Block :=
  match key_default o, b !! schema_key o with
  | Some v, None => <[schema_key o := v]> b
  | _, _ => b
  end.

Definition with_defaults (schema : list Optional) (b : Block) : Block :=
  fold_left insert_default schema b.

Section Integration.

Context (env : Constants).

(** The dict schema below [DOMAIN], entry by entry in source order. *)
Definition DOMAIN_SCHEMA : list Optional :=
  [ {| schema_key := CONF_FORCE_UPDATE_FREQUENCY;
       key_default := Some (VTimedelta DEFAULT_UPDATE_FREQUENCY);
       validator := cv_time_period |};
    {| schema_key := CONF_POWER_SENSOR_NAMING;
       key_default := Some (VStr (DEFAULT_POWER_NAME_PATTERN env));
       validator := validate_name_pattern |};
    {| schema_key := CONF_POWER_SENSOR_FRIENDLY_NAMING;
       key_default := None;
       validator := validate_name_pattern |};
    {| schema_key := CONF_POWER_SENSOR_CATEGORY;
       key_default := Some (DEFAULT_ENTITY_CATEGORY env);
       validator := vol_In ENTITY_CATEGORIES |};
    {| schema_key := CONF_ENERGY_SENSOR_NAMING;
       key_default := Some (VStr (DEFAULT_ENERGY_NAME_PATTERN env));
       validator := validate_name_pattern |};
    {| schema_key := CONF_ENERGY_SENSOR_FRIENDLY_NAMING;
       key_default := None;
       validator := validate_name_pattern |};
    {| schema_key := CONF_ENERGY_SENSOR_CATEGORY;
       key_default := Some (DEFAULT_ENTITY_CATEGORY env);
       validator := vol_In ENTITY_CATEGORIES |};
    {| schema_key := CONF_DISABLE_EXTENDED_ATTRIBUTES;
       key_default := Some (VBool false);
       validator := cv_boolean |};
    {| schema_key := CONF_ENABLE_AUTODISCOVERY;
       key_default := Some (VBool true);
       validator := cv_boolean |};
    {| schema_key := CONF_CREATE_ENERGY_SENSORS;
       key_default := Some (VBool true);
       validator := cv_boolean |};
    {| schema_key := CONF_CREATE_UTILITY_METERS;
       key_default := Some (VBool false);
       validator := cv_boolean |};
    {| schema_key := CONF_UTILITY_METER_TARIFFS;
       key_default := Some (VList []);
       validator := vol_All [cv_ensure_list; vol_Each cv_string] |};
    {| schema_key := CONF_UTILITY_METER_TYPES;
       key_default := Some (VList (DEFAULT_UTILITY_METER_TYPES env));
       validator := vol_All [cv_ensure_list; vol_Each (vol_In METER_TYPES)] |};
    {| schema_key := CONF_UTILITY_METER_OFFSET;
       key_default := Some (VTimedelta (DEFAULT_OFFSET env));
       validator := vol_All [cv_time_period; cv_positive_timedelta; max_28_days] |};
    {| schema_key := CONF_ENERGY_INTEGRATION_METHOD;
       key_default := Some (VMethod DEFAULT_ENERGY_INTEGRATION_METHOD);
       validator := vol_In ENERGY_INTEGRATION_METHODS |};
    {| schema_key := CONF_ENERGY_SENSOR_PRECISION;
       key_default := Some (VInt DEFAULT_ENERGY_SENSOR_PRECISION);
       validator := cv_positive_int |};
    {| schema_key := CONF_POWER_SENSOR_PRECISION;
       key_default := Some (VInt DEFAULT_POWER_SENSOR_PRECISION);
       validator := cv_positive_int |};
    {| schema_key := CONF_ENERGY_SENSOR_UNIT_PREFIX;
       key_default := Some (VUnitPrefix KILO);
       validator := vol_In UnitPrefix_values |};
    {| schema_key := CONF_CREATE_DOMAIN_GROUPS;
       key_default := Some (VList []);
       validator := vol_All [cv_ensure_list; vol_Each cv_string] |};
    {| schema_key := CONF_IGNORE_UNAVAILABLE_STATE;
       key_default := None;
       validator := cv_boolean |} ].

(** What CONFIG_SCHEMA makes of an empty powercalc block: every default. *)
Definition schema_defaults : Block := with_defaults DOMAIN_SCHEMA ∅.

(** ** [async_setup] *)

(** The dict literal of [async_setup], used when [config.get(DOMAIN)] is
    falsy. *)
Definition fallback_domain_config : Block :=
  list_to_map
    [ (CONF_POWER_SENSOR_NAMING, VStr (DEFAULT_POWER_NAME_PATTERN env));
      (CONF_POWER_SENSOR_PRECISION, VInt DEFAULT_POWER_SENSOR_PRECISION);
      (CONF_POWER_SENSOR_CATEGORY, DEFAULT_ENTITY_CATEGORY env);
      (CONF_ENERGY_INTEGRATION_METHOD, VMethod DEFAULT_ENERGY_INTEGRATION_METHOD);
      (CONF_ENERGY_SENSOR_NAMING, VStr (DEFAULT_ENERGY_NAME_PATTERN env));
      (CONF_ENERGY_SENSOR_PRECISION, VInt DEFAULT_ENERGY_SENSOR_PRECISION);
      (CONF_ENERGY_SENSOR_CATEGORY, DEFAULT_ENTITY_CATEGORY env);
      (CONF_ENERGY_SENSOR_UNIT_PREFIX, VUnitPrefix KILO);
      (CONF_FORCE_UPDATE_FREQUENCY, VTimedelta DEFAULT_UPDATE_FREQUENCY);
      (CONF_DISABLE_EXTENDED_ATTRIBUTES, VBool false);
      (CONF_IGNORE_UNAVAILABLE_STATE, VBool false);
      (CONF_CREATE_DOMAIN_GROUPS, VList []);
      (CONF_CREATE_ENERGY_SENSORS, VBool true);
      (CONF_CREATE_UTILITY_METERS, VBool false);
      (CONF_ENABLE_AUTODISCOVERY, VBool true);
      (CONF_UTILITY_METER_OFFSET, VTimedelta (DEFAULT_OFFSET env));
      (CONF_UTILITY_METER_TYPES, VList (DEFAULT_UTILITY_METER_TYPES env)) ].

(** [config.get(DOMAIN) or { ... }] *)
Definition effective_domain_config (config : Config) : Block :=
  match config !! DOMAIN with
  | Some b => if dict_truthy b then b else fallback_domain_config
  | None => fallback_domain_config
  end.

Definition inv_ha_version_message : string :=
  "This integration require at least HomeAssistant version "
  +:+ " " +:+ MIN_HA_VERSION env
  +:+ ", you are running version " +:+ HA_VERSION env +:+ "."
  +:+ " Please upgrade HomeAssistant to continue use this integration.".

Definition async_setup (config : Config) : M bool :=
  if AwesomeVersion_lt env (HA_VERSION env) (MIN_HA_VERSION env) then
    let msg := inv_ha_version_message in
    run _notify_message "inv_ha_version" "PowerCalc" msg then
    run log CRITICAL msg then
    ret false
  else
    let domain_config := effective_domain_config config in
    run set_data
          {| calculator_factory := PowerCalculatorStrategyFactory;
             domain_config := domain_config;
             configured_entities := ∅;
             domain_entities := ∅;
             discovered_entities := ∅;
             used_unique_ids := [] |} then
    run (if get_truthy domain_config CONF_ENABLE_AUTODISCOVERY
         then start_discovery config
         else ret tt) then
    run (if get_truthy domain_config CONF_CREATE_DOMAIN_GROUPS
         then async_listen_once EVENT_HOMEASSISTANT_STARTED
                (create_domain_groups_callback domain_config)
         else ret tt) then
    ret true.

End Integration.

(** ** [async_unload_entry] *)

(** [l.remove(x)]: drops the first occurrence of [x]; [None] stands for the
    [ValueError] raised when [x] does not occur.  An entry without unique id
    carries [None], which no element of a list of strings equals. *)
Fixpoint list_remove (x : string) (l : list string) : option (list string) :=
  match l with
  | [] => None
  | y :: l' =>
      if bool_decide (y = x) then Some l'
      else match list_remove x l' with
           | Some r => Some (y :: r)
           | None => None
           end
  end.

Definition remove_unique_id (uid : option string) (l : list string) : option (list string) :=
  match uid with
  | Some x => list_remove x l
  | None => None
  end.

Definition with_used_unique_ids (d : PowercalcData) (ids : list string) : PowercalcData :=
  {| calculator_factory := calculator_factory d;
     domain_config := domain_config d;
     configured_entities := configured_entities d;
     domain_entities := domain_entities d;
     discovered_entities := discovered_entities d;
     used_unique_ids := ids |}.

Section Unload.

(** [hass.config_entries.async_unload_platforms], a call into the host. *)
Context (async_unload_platforms : ConfigEntry → list Platform → M bool).

Definition async_unload_entry (config_entry : ConfigEntry) : M bool :=
  let* unload_ok := async_unload_platforms config_entry PLATFORMS in
  if unload_ok : bool then
    let* d := get_data in
    match remove_unique_id (unique_id config_entry) (used_unique_ids d) with
    | Some ids => run set_data (with_used_unique_ids d ids) then ret unload_ok
    | None => ret true
    end
  else ret unload_ok.

End Unload.

(** ** [async_remove_entry] *)

Definition with_data (e : ConfigEntry) (d : EntryData) : ConfigEntry :=
  {| entry_id := entry_id e; unique_id := unique_id e; state := state e; data := d |}.

Definition is_group_having_member (member : string) (e : ConfigEntry) : bool :=
  bool_decide (sensor_type (data e) = Some GROUP)
  && bool_decide (member ∈ member_sensors (data e)).

Definition is_power_sensor_of_group (group_id : string) (e : ConfigEntry) : bool :=
  bool_decide (sensor_type (data e) = Some VIRTUAL_POWER)
  && bool_decide (group (data e) = Some group_id).

Definition without_member (member : string) (e : ConfigEntry) : ConfigEntry :=
  with_data e
    {| sensor_type := sensor_type (data e);
       group := group (data e);
       member_sensors := filter (λ m, m ≠ member) (member_sensors (data e)) |}.

Definition without_group (e : ConfigEntry) : ConfigEntry :=
  with_data e
    {| sensor_type := sensor_type (data e);
       group := None;
       member_sensors := member_sensors (data e) |}.

(** Modelled from the spec: [sensors.group.remove_power_sensor_from_associated_groups]
    is not part of the sources at hand.  "Group membership updated when
    member entities are ... removed": every group entry that lists the removed
    power sensor is updated to no longer list it, and the updated entries are
    returned. *)
Definition remove_power_sensor_from_associated_groups
    (config_entry : ConfigEntry) : M (list ConfigEntry) :=
  let* entries := get_entries in
  let member := entry_id config_entry in
  run set_entries
        ((λ e, if is_group_having_member member e then without_member member e else e)
           <$> entries) then
  ret (without_member member <$> filter (λ e, is_group_having_member member e) entries).

(** Modelled from the spec: [sensors.group.remove_group_from_power_sensor_entry]
    is not part of the sources at hand.  "Group membership updated when
    member entities are ... removed": every power-sensor entry that refers to
    the removed group is updated to refer to no group, and the updated entries
    are returned. *)
Definition remove_group_from_power_sensor_entry
    (config_entry : ConfigEntry) : M (list ConfigEntry) :=
  let* entries := get_entries in
  let group_id := entry_id config_entry in
  run set_entries
        ((λ e, if is_power_sensor_of_group group_id e then without_group e else e)
           <$> entries) then
  ret (without_group <$> filter (λ e, is_power_sensor_of_group group_id e) entries).

Definition async_remove_entry (config_entry : ConfigEntry) : M unit :=
  let updated_entries : list ConfigEntry := [] in
  let sensor_type := sensor_type (data config_entry) in
  let* updated_entries :=
    (if bool_decide (sensor_type = Some VIRTUAL_POWER)
     then remove_power_sensor_from_associated_groups config_entry
     else ret updated_entries) in
  let* updated_entries :=
    (if bool_decide (sensor_type = Some GROUP)
     then remove_group_from_power_sensor_entry config_entry
     else ret updated_entries) in
  for_each updated_entries
    (λ entry,
       if bool_decide (state entry = LOADED)
       then async_reload (entry_id entry)
       else ret tt).

(** ** Group value *)

(** Modelled from the spec: a [PowerSample]'s power, "Unavailable is a
    distinct variant, not a numeric sentinel". *)
Inductive Power :=
| Watts (w : Q)
| Unavailable.

(** Modelled from the spec: the group sensor of [sensors/group.py] is not
    part of the sources at hand.  "Group value = sum of children's current
    PowerSample where Unavailable children are excluded from the sum but
    recorded so the group can itself report Unavailable only if all children
    are Unavailable."  The running state is the sum so far and whether an
    available child was seen. *)
Definition group_step (acc : Q * bool) (child : Power) : Q * bool :=
  match child with
  | Watts w => (Qplus (fst acc) w, true)
  | Unavailable => acc
  end.

Definition group_value (children : list Power) : Power :=
  let '(total, available) := fold_left group_step children (0%Q, false) in
  if available then Watts total else Unavailable.

Definition is_unavailable (child : Power) : bool :=
  match child with
  | Unavailable => true
  | Watts _ => false
  end.

(** The sum of the available children, written as a recursion from the
    right. *)
Fixpoint sum_available (children : list Power) : Q :=
  match children with
  | [] => 0%Q
  | Watts w :: rest => Qplus w (sum_available rest)
  | Unavailable :: rest => sum_available rest
  end.

(** ** Observations used by the statements below *)

(** Home Assistant keeps one persistent notification per notification id:
    [persistent_notification.create] under an id already shown replaces that
    notification.  A call without id gets a fresh one from the host and is
    left out here. *)
Definition persistent_notification_create
    (shown : gmap string (gmap string string)) (task : Task)
    : gmap string (gmap string string) :=
  match task with
  | ServiceCall domain service service_data =>
      if bool_decide (domain = "persistent_notification" ∧ service = "create")
      then match service_data !! "notification_id" with
           | Some id => <[id := service_data]> shown
           | None => shown
           end
      else shown
  | LoadPlatform _ _ _ _ => shown
  end.

Definition notifications (tasks : list Task) : gmap string (gmap string string) :=
  fold_left persistent_notification_create tasks ∅.

(** A host on which nothing has happened yet. *)
Definition fresh_hass : HomeAssistant :=
  {| hass_data := None;
     hass_tasks := [];
     hass_listeners := [];
     hass_discoveries := [];
     hass_entries := [];
     hass_reloads := [];
     logger := [] |}.

(** [n] runs of [async_setup] in a row, one per start of the host. *)
Fixpoint setups (env : Constants) (config : Config) (n : nat) : HomeAssistant :=
  match n with
  | O => fresh_hass
  | S n' => (async_setup env config (setups env config n')).2
  end.

(** How often [x] occurs in [l]. *)
Definition occurrences (x : string) (l : list string) : nat :=
  length (filter (λ y, y = x) l).

(** The registered entries that the removal of [removed] updates. *)
Definition refers_to (removed : ConfigEntry) (e : ConfigEntry) : bool :=
  match sensor_type (data removed) with
  | Some VIRTUAL_POWER => is_group_having_member (entry_id removed) e
  | Some GROUP => is_power_sensor_of_group (entry_id removed) e
  | _ => false
  end.

(** The task [create_domain_groups] schedules for a domain with entities. *)
Definition domain_group_task (global_config : Block) (domain : string)
    (entities : list string) : Task :=
  LoadPlatform SENSOR_DOMAIN DOMAIN
    {| discovery_type := DOMAIN_GROUP;
       conf_entities := entities;
       conf_domain := domain |}
    global_config.

Definition no_entities_error (domain : string) : LogLevel * string :=
  (ERROR, "Cannot setup group for domain " +:+ domain +:+ ", no entities found").

(** What [create_domain_groups] is expected to schedule and to log for a list
    of domains, given the registered entities per domain. *)
Definition scheduled_groups (global_config : Block) (d : PowercalcData)
    (domains : list string) : list Task :=
  omap (λ domain, domain_group_task global_config domain <$> domain_entities d !! domain)
       domains.

Definition logged_errors (d : PowercalcData) (domains : list string)
    : list (LogLevel * string) :=
  omap (λ domain,
          match domain_entities d !! domain with
          | None => Some (no_entities_error domain)
          | Some _ => None
          end)
       domains.

(** A host after setup on which the lights and the switches have power
    sensors. *)
Definition lights_and_switches : HomeAssistant :=
  {| hass_data :=
       Some {| calculator_factory := PowerCalculatorStrategyFactory;
               domain_config := ∅;
               configured_entities := ∅;
               domain_entities :=
                 <["light" := ["sensor.lamp_power"] ]>
                   (<["switch" := ["sensor.plug_power"] ]> ∅);
               discovered_entities := ∅;
               used_unique_ids := ["lamp"; "plug"; "lamp"] |};
     hass_tasks := [];
     hass_listeners := [];
     hass_discoveries := [];
     hass_entries := [];
     hass_reloads := [];
     logger := [] |}.

(** Two hosts for the examples: one older than the minimum version, one
    recent enough.  Versions are compared as strings here. *)
Definition outdated_host : Constants :=
  {| MIN_HA_VERSION := "2022.11.0";
     HA_VERSION := "2022.10.5";
     AwesomeVersion_lt := String.ltb;
     DEFAULT_POWER_NAME_PATTERN := "{} power";
     DEFAULT_ENERGY_NAME_PATTERN := "{} energy";
     DEFAULT_ENTITY_CATEGORY := VNone;
     DEFAULT_OFFSET := timedelta_hours 0;
     DEFAULT_UTILITY_METER_TYPES := ["daily"; "weekly"; "monthly"] |}.

Definition current_host : Constants :=
  {| MIN_HA_VERSION := "2022.11.0";
     HA_VERSION := "2022.12.1";
     AwesomeVersion_lt := String.ltb;
     DEFAULT_POWER_NAME_PATTERN := "{} power";
     DEFAULT_ENERGY_NAME_PATTERN := "{} energy";
     DEFAULT_ENTITY_CATEGORY := VNone;
     DEFAULT_OFFSET := timedelta_hours 0;
     DEFAULT_UTILITY_METER_TYPES := ["daily"; "weekly"; "monthly"] |}.

(** * Properties *)

(** ** The version check of [async_setup] *)

(** The state [async_setup] leaves behind when the host is too old: one more
    task, one more log record, nothing else. *)
Lemma async_setup_outdated env config hass :
  AwesomeVersion_lt env (HA_VERSION env) (MIN_HA_VERSION env) = true →
  async_setup env config hass =
    (Ok false,
     {| hass_data := hass_data hass;
        hass_tasks :=
          hass_tasks hass ++
          [ServiceCall "persistent_notification" "create"
             (<["title" := "PowerCalc"]>
                (<["message" := inv_ha_version_message env]>
                   (<["notification_id" := "powercalc.inv_ha_version"]> ∅)))];
        hass_listeners := hass_listeners hass;
        hass_discoveries := hass_discoveries hass;
        hass_entries := hass_entries hass;
        hass_reloads := hass_reloads hass;
        logger := logger hass ++ [(CRITICAL, inv_ha_version_message env)] |}).
Proof.
  intros Hold. unfold async_setup. rewrite Hold. reflexivity.
Qed.

Lemma notifications_snoc tasks task :
  notifications (tasks ++ [task]) =
  persistent_notification_create (notifications tasks) task.
Proof. unfold notifications. by rewrite fold_left_app. Qed.

(** C1: on a host older than the minimum version [async_setup] returns
    [False] and schedules exactly one call of [persistent_notification.create],
    whose notification id is the fixed string powercalc.inv_ha_version; after
    any number of starts of such a host the notifications shown under the
    host's one-per-id policy are that single one. *)
Theorem async_setup_outdated_notifies_once env config hass :
  AwesomeVersion_lt env (HA_VERSION env) (MIN_HA_VERSION env) = true →
  ∃ service_data hass',
    async_setup env config hass = (Ok false, hass')
    ∧ hass_tasks hass' =
        hass_tasks hass ++ [ServiceCall "persistent_notification" "create" service_data]
    ∧ service_data !! "notification_id" = Some "powercalc.inv_ha_version"
    ∧ ∀ n, notifications (hass_tasks (setups env config (S n))) =
           {[ "powercalc.inv_ha_version" := service_data ]}.
Proof.
  intros Hold. eexists _, _. split; [by apply async_setup_outdated|].
  split; [reflexivity|]. split; [reflexivity|].
  induction n as [|n IH].
  - cbn [setups]. rewrite async_setup_outdated by done. reflexivity.
  - change (setups env config (S (S n)))
      with ((async_setup env config (setups env config (S n))).2).
    rewrite async_setup_outdated by done.
    cbn [snd hass_tasks]. rewrite notifications_snoc, IH.
    cbn -[insert singletonM]. apply insert_singleton_eq.
Qed.

Lemma async_setup_outdated_notifies_once_witness :
  AwesomeVersion_lt outdated_host (HA_VERSION outdated_host)
    (MIN_HA_VERSION outdated_host) = true
  ∧ ∃ service_data hass',
      async_setup outdated_host ∅ fresh_hass = (Ok false, hass')
      ∧ hass_tasks hass' =
          hass_tasks fresh_hass ++ [ServiceCall "persistent_notification" "create" service_data]
      ∧ service_data !! "notification_id" = Some "powercalc.inv_ha_version"
      ∧ ∀ n, notifications (hass_tasks (setups outdated_host ∅ (S n))) =
             {[ "powercalc.inv_ha_version" := service_data ]}.
Proof.
  split; [reflexivity|].
  apply (async_setup_outdated_notifies_once outdated_host ∅ fresh_hass).
  reflexivity.
Defined.

(** C8: on a host older than the minimum version [async_setup] returns
    [False] and initialises nothing: [hass.data] is left as it was, no
    discovery is started, no listener is registered, no entry is touched or
    reloaded; the only effects are the notification call and one critical log
    record. *)
Theorem async_setup_outdated_initialises_nothing env config hass :
  AwesomeVersion_lt env (HA_VERSION env) (MIN_HA_VERSION env) = true →
  (async_setup env config hass).1 = Ok false
  ∧ hass_data (async_setup env config hass).2 = hass_data hass
  ∧ hass_discoveries (async_setup env config hass).2 = hass_discoveries hass
  ∧ hass_listeners (async_setup env config hass).2 = hass_listeners hass
  ∧ hass_entries (async_setup env config hass).2 = hass_entries hass
  ∧ hass_reloads (async_setup env config hass).2 = hass_reloads hass
  ∧ (∃ notification,
       hass_tasks (async_setup env config hass).2 =
         hass_tasks hass ++ [ServiceCall "persistent_notification" "create" notification])
  ∧ logger (async_setup env config hass).2 =
      logger hass ++ [(CRITICAL, inv_ha_version_message env)].
Proof.
  intros Hold. rewrite async_setup_outdated by done. cbn.
  repeat split; try reflexivity. eexists. reflexivity.
Qed.

Lemma async_setup_outdated_initialises_nothing_witness :
  AwesomeVersion_lt outdated_host (HA_VERSION outdated_host)
    (MIN_HA_VERSION outdated_host) = true
  ∧ (async_setup outdated_host ∅ fresh_hass).1 = Ok false
  ∧ hass_data (async_setup outdated_host ∅ fresh_hass).2 = None.
Proof.
  split; [reflexivity|].
  pose proof (async_setup_outdated_initialises_nothing outdated_host ∅ fresh_hass
                eq_refl) as (Hret & Hdata & _).
  split; [exact Hret | exact Hdata].
Defined.

(** ** The domain configuration [async_setup] stores *)

(** The state [async_setup] leaves behind on a host that is recent enough. *)
Lemma async_setup_current env config hass :
  AwesomeVersion_lt env (HA_VERSION env) (MIN_HA_VERSION env) = false →
  async_setup env config hass =
    (Ok true,
     {| hass_data :=
          Some {| calculator_factory := PowerCalculatorStrategyFactory;
                  domain_config := effective_domain_config env config;
                  configured_entities := ∅;
                  domain_entities := ∅;
                  discovered_entities := ∅;
                  used_unique_ids := [] |};
        hass_tasks := hass_tasks hass;
        hass_listeners :=
          if get_truthy (effective_domain_config env config) CONF_CREATE_DOMAIN_GROUPS
          then hass_listeners hass ++
               [(EVENT_HOMEASSISTANT_STARTED,
                 create_domain_groups_callback (effective_domain_config env config))]
          else hass_listeners hass;
        hass_discoveries :=
          if get_truthy (effective_domain_config env config) CONF_ENABLE_AUTODISCOVERY
          then hass_discoveries hass ++ [config]
          else hass_discoveries hass;
        hass_entries := hass_entries hass;
        hass_reloads := hass_reloads hass;
        logger := logger hass |}).
Proof.
  intros Hnew. unfold async_setup. rewrite Hnew.
  destruct (get_truthy _ CONF_CREATE_DOMAIN_GROUPS) eqn:Hgroups;
    destruct (get_truthy _ CONF_ENABLE_AUTODISCOVERY) eqn:Hdisc;
    unfold bind, set_data, start_discovery, async_listen_once, ret; cbn;
    rewrite ?Hgroups, ?Hdisc; reflexivity.
Qed.

Lemma insert_default_lookup_ne (b : Block) (o : Optional) (k : conf_key) :
  schema_key o ≠ k → insert_default b o !! k = b !! k.
Proof.
  intros Hne. unfold insert_default.
  destruct (key_default o), (b !! schema_key o); try reflexivity.
  by rewrite lookup_insert_ne.
Qed.

Lemma insert_default_lookup_Some (b : Block) (o : Optional) (v : Value) :
  key_default o = Some v → is_Some (insert_default b o !! schema_key o).
Proof.
  intros Hdef. unfold insert_default. rewrite Hdef.
  destruct (b !! schema_key o) eqn:Hb.
  - rewrite Hb. eauto.
  - rewrite lookup_insert_eq. eauto.
Qed.

Lemma insert_default_lookup_None (b : Block) (o : Optional) (k : conf_key) :
  key_default o = None → insert_default b o !! k = b !! k.
Proof. intros Hdef. unfold insert_default. by rewrite Hdef. Qed.

Lemma insert_default_is_Some (b : Block) (o : Optional) (k : conf_key) :
  is_Some (b !! k) → is_Some (insert_default b o !! k).
Proof.
  intros Hk. unfold insert_default.
  destruct (key_default o), (b !! schema_key o) eqn:Hb; try done.
  destruct (decide (schema_key o = k)) as [->|Hne].
  - rewrite lookup_insert_eq. eauto.
  - by rewrite lookup_insert_ne.
Qed.

(** A key that no schema entry gives a default is in the validated block
    exactly when it was written in the configuration. *)
Lemma with_defaults_lookup_no_default schema (b : Block) (k : conf_key) :
  Forall (λ o, schema_key o = k → key_default o = None) schema →
  with_defaults schema b !! k = b !! k.
Proof.
  unfold with_defaults. intros Hschema. revert b.
  induction Hschema as [|o schema Ho _ IH]; intros b; [reflexivity|].
  cbn [fold_left]. rewrite IH.
  destruct (decide (schema_key o = k)) as [Heq|Hne].
  - apply insert_default_lookup_None. auto.
  - by apply insert_default_lookup_ne.
Qed.

Lemma with_defaults_is_Some schema (b : Block) (k : conf_key) :
  is_Some (b !! k) → is_Some (with_defaults schema b !! k).
Proof.
  unfold with_defaults. revert b.
  induction schema as [|o schema IH]; intros b Hk; [done|].
  cbn [fold_left]. apply IH. by apply insert_default_is_Some.
Qed.

(** A key with a default is in every validated block. *)
Lemma with_defaults_lookup_default schema (b : Block) (o : Optional) (v : Value) :
  o ∈ schema → key_default o = Some v →
  is_Some (with_defaults schema b !! schema_key o).
Proof.
  intros Hin Hdef. revert b.
  induction Hin as [o schema|o o' schema _ IH]; intros b.
  - unfold with_defaults. cbn [fold_left].
    apply (with_defaults_is_Some schema). by eapply insert_default_lookup_Some.
  - unfold with_defaults. cbn [fold_left]. by apply IH.
Qed.

(** The schema never adds the ignore-unavailable key: it has no default. *)
Lemma with_defaults_ignore_unavailable env (b : Block) :
  with_defaults (DOMAIN_SCHEMA env) b !! CONF_IGNORE_UNAVAILABLE_STATE =
  b !! CONF_IGNORE_UNAVAILABLE_STATE.
Proof.
  apply with_defaults_lookup_no_default.
  unfold DOMAIN_SCHEMA. repeat constructor; cbn; first [discriminate | reflexivity].
Qed.

(** A validated powercalc block is never empty. *)
Lemma with_defaults_truthy env (b : Block) :
  dict_truthy (with_defaults (DOMAIN_SCHEMA env) b) = true.
Proof.
  unfold dict_truthy. apply negb_true_iff, bool_decide_eq_false. intros Hempty.
  assert (is_Some (with_defaults (DOMAIN_SCHEMA env) b !! CONF_ENABLE_AUTODISCOVERY))
    as [v Hv].
  { apply (with_defaults_lookup_default _ _
             {| schema_key := CONF_ENABLE_AUTODISCOVERY;
                key_default := Some (VBool true);
                validator := cv_boolean |} (VBool true)); [|reflexivity].
    unfold DOMAIN_SCHEMA. set_solver. }
  rewrite Hempty, lookup_empty in Hv. discriminate.
Qed.

Lemma effective_domain_config_absent env (config : Config) :
  config !! DOMAIN = None →
  effective_domain_config env config = fallback_domain_config env.
Proof. intros Habsent. unfold effective_domain_config. by rewrite Habsent. Qed.

Lemma effective_domain_config_validated env (rest : Config) (written : Block) :
  effective_domain_config env
    (<[DOMAIN := with_defaults (DOMAIN_SCHEMA env) written]> rest) =
  with_defaults (DOMAIN_SCHEMA env) written.
Proof.
  unfold effective_domain_config.
  by rewrite lookup_insert_eq, with_defaults_truthy.
Qed.

(** C4: when the powercalc block is absent, [async_setup] succeeds on a
    recent enough host and the domain configuration it stores has energy
    sensor precision 4, power sensor precision 2, unit prefix kilo, left
    Riemann integration and a force-update interval of 10 minutes. *)
Theorem async_setup_absent_block_defaults env (config : Config) hass :
  AwesomeVersion_lt env (HA_VERSION env) (MIN_HA_VERSION env) = false →
  config !! DOMAIN = None →
  ∃ d,
    (async_setup env config hass).1 = Ok true
    ∧ hass_data (async_setup env config hass).2 = Some d
    ∧ domain_config d !! CONF_ENERGY_SENSOR_PRECISION = Some (VInt 4)
    ∧ domain_config d !! CONF_POWER_SENSOR_PRECISION = Some (VInt 2)
    ∧ domain_config d !! CONF_ENERGY_SENSOR_UNIT_PREFIX = Some (VUnitPrefix KILO)
    ∧ domain_config d !! CONF_ENERGY_INTEGRATION_METHOD = Some (VMethod LEFT)
    ∧ domain_config d !! CONF_FORCE_UPDATE_FREQUENCY =
        Some (VTimedelta (10 * 60 * 1000000)).
Proof.
  intros Hnew Habsent. rewrite async_setup_current by done.
  rewrite effective_domain_config_absent by done.
  eexists. split; [reflexivity|]. split; [reflexivity|].
  cbn [domain_config]. repeat split; vm_compute; reflexivity.
Qed.

Lemma async_setup_absent_block_defaults_witness :
  AwesomeVersion_lt current_host (HA_VERSION current_host)
    (MIN_HA_VERSION current_host) = false
  ∧ (∅ : Config) !! DOMAIN = None
  ∧ ∃ d,
      (async_setup current_host ∅ fresh_hass).1 = Ok true
      ∧ hass_data (async_setup current_host ∅ fresh_hass).2 = Some d
      ∧ domain_config d !! CONF_ENERGY_SENSOR_PRECISION = Some (VInt 4)
      ∧ domain_config d !! CONF_POWER_SENSOR_PRECISION = Some (VInt 2)
      ∧ domain_config d !! CONF_ENERGY_SENSOR_UNIT_PREFIX = Some (VUnitPrefix KILO)
      ∧ domain_config d !! CONF_ENERGY_INTEGRATION_METHOD = Some (VMethod LEFT)
      ∧ domain_config d !! CONF_FORCE_UPDATE_FREQUENCY =
          Some (VTimedelta (10 * 60 * 1000000)).
Proof.
  split; [reflexivity|]. split; [reflexivity|].
  apply (async_setup_absent_block_defaults current_host ∅ fresh_hass);
    reflexivity.
Defined.

(** C2: the ignore-unavailable flag the stored domain configuration carries
    on a recent enough host.  With the powercalc block absent it is [False];
    with a block that went through CONFIG_SCHEMA without the option written
    in it, the stored configuration has no entry for the flag at all, so
    reading it yields [None] and not [False] (which a truth test still
    takes for false). *)
Theorem async_setup_ignore_unavailable_flag env (rest : Config) (written : Block) hass :
  AwesomeVersion_lt env (HA_VERSION env) (MIN_HA_VERSION env) = false →
  written !! CONF_IGNORE_UNAVAILABLE_STATE = None →
  (∃ d,
     hass_data (async_setup env (delete DOMAIN rest) hass).2 = Some d
     ∧ domain_config d !! CONF_IGNORE_UNAVAILABLE_STATE = Some (VBool false))
  ∧ (∃ d,
       hass_data
         (async_setup env
            (<[DOMAIN := with_defaults (DOMAIN_SCHEMA env) written]> rest) hass).2 = Some d
       ∧ domain_config d !! CONF_IGNORE_UNAVAILABLE_STATE = None
       ∧ get_truthy (domain_config d) CONF_IGNORE_UNAVAILABLE_STATE = false).
Proof.
  intros Hnew Hunset. split.
  - rewrite async_setup_current by done.
    rewrite effective_domain_config_absent by apply lookup_delete_eq.
    eexists. split; [reflexivity|]. vm_compute. reflexivity.
  - rewrite async_setup_current by done.
    rewrite effective_domain_config_validated.
    eexists. split; [reflexivity|].
    cbn [domain_config]. unfold get_truthy.
    by rewrite with_defaults_ignore_unavailable, Hunset.
Qed.

Lemma async_setup_ignore_unavailable_flag_witness :
  AwesomeVersion_lt current_host (HA_VERSION current_host)
    (MIN_HA_VERSION current_host) = false
  ∧ (∅ : Block) !! CONF_IGNORE_UNAVAILABLE_STATE = None
  ∧ ∃ d,
      hass_data (async_setup current_host
                   {[ DOMAIN := schema_defaults current_host ]} fresh_hass).2 = Some d
      ∧ domain_config d !! CONF_IGNORE_UNAVAILABLE_STATE = None
      ∧ get_truthy (domain_config d) CONF_IGNORE_UNAVAILABLE_STATE = false.
Proof.
  split; [reflexivity|]. split; [reflexivity|].
  exact (proj2 (async_setup_ignore_unavailable_flag current_host ∅ ∅ fresh_hass
                  eq_refl eq_refl)).
Defined.

(** C9: the fallback dict of [async_setup] against the defaults of
    CONFIG_SCHEMA, option by option.  They agree everywhere but on two
    options: the fallback sets the ignore-unavailable flag to [False] where
    the schema has no default, and the schema defaults the utility meter
    tariffs to the empty list where the fallback has no entry. *)
Theorem fallback_differs_from_schema_defaults env :
  fallback_domain_config env !! CONF_IGNORE_UNAVAILABLE_STATE = Some (VBool false)
  ∧ schema_defaults env !! CONF_IGNORE_UNAVAILABLE_STATE = None
  ∧ fallback_domain_config env !! CONF_UTILITY_METER_TARIFFS = None
  ∧ schema_defaults env !! CONF_UTILITY_METER_TARIFFS = Some (VList [])
  ∧ ∀ k : conf_key,
      k = CONF_IGNORE_UNAVAILABLE_STATE
      ∨ k = CONF_UTILITY_METER_TARIFFS
      ∨ fallback_domain_config env !! k = schema_defaults env !! k.
Proof.
  repeat split; try (vm_compute; reflexivity).
  intros k. destruct k; try (by left); try (by right; left);
    right; right; vm_compute; reflexivity.
Qed.

(** ** [create_domain_groups] *)

Lemma for_each_create_domain_group global_config d domains hass :
  hass_data hass = Some d →
  for_each domains (create_domain_group global_config) hass =
    (Ok tt,
     {| hass_data := hass_data hass;
        hass_tasks := hass_tasks hass ++ scheduled_groups global_config d domains;
        hass_listeners := hass_listeners hass;
        hass_discoveries := hass_discoveries hass;
        hass_entries := hass_entries hass;
        hass_reloads := hass_reloads hass;
        logger := logger hass ++ logged_errors d domains |}).
Proof.
  revert hass. induction domains as [|domain domains IH]; intros hass Hdata.
  - destruct hass. cbn. by rewrite !app_nil_r.
  - cbn [for_each]. unfold bind at 1. unfold create_domain_group at 1.
    unfold bind at 1, get_data. rewrite Hdata.
    unfold scheduled_groups, logged_errors. cbn [omap list_omap].
    fold (scheduled_groups global_config d domains). fold (logged_errors d domains).
    destruct (domain_entities d !! domain) as [entities|] eqn:Hdomain.
    + cbn [async_create_task fmap option_fmap option_map].
      rewrite IH by done. cbn. rewrite ?Hdata, <- !app_assoc. reflexivity.
    + cbn [log]. rewrite IH by done. cbn. rewrite ?Hdata, <- !app_assoc. reflexivity.
Qed.

Lemma create_domain_groups_run global_config d domains hass :
  hass_data hass = Some d →
  create_domain_groups global_config domains hass =
    (Ok tt,
     {| hass_data := hass_data hass;
        hass_tasks := hass_tasks hass ++ scheduled_groups global_config d domains;
        hass_listeners := hass_listeners hass;
        hass_discoveries := hass_discoveries hass;
        hass_entries := hass_entries hass;
        hass_reloads := hass_reloads hass;
        logger :=
          logger hass ++
          (DEBUG, "Setting up domain based group sensors..") :: logged_errors d domains |}).
Proof.
  intros Hdata. unfold create_domain_groups, bind, log.
  rewrite (for_each_create_domain_group global_config d) by done.
  cbn. by rewrite <- !app_assoc.
Qed.

(** C3: [create_domain_groups] runs to the end for every list of domains.
    It schedules one group sensor per listed domain that has registered
    entities, in the order of the list, and none for the others; for each
    listed domain without registered entities it logs one error.  So every
    listed domain with entities gets its group sensor, whatever domains
    without entities stand before or after it in the list. *)
Theorem create_domain_groups_isolates_missing_domains
    global_config d (domains : list string) hass :
  hass_data hass = Some d →
  (create_domain_groups global_config domains hass).1 = Ok tt
  ∧ hass_tasks (create_domain_groups global_config domains hass).2 =
      hass_tasks hass ++ scheduled_groups global_config d domains
  ∧ logger (create_domain_groups global_config domains hass).2 =
      logger hass ++
      (DEBUG, "Setting up domain based group sensors..") :: logged_errors d domains
  ∧ (∀ domain entities,
       domain ∈ domains →
       domain_entities d !! domain = Some entities →
       domain_group_task global_config domain entities
         ∈ hass_tasks (create_domain_groups global_config domains hass).2)
  ∧ (∀ domain,
       domain ∈ domains →
       domain_entities d !! domain = None →
       no_entities_error domain
         ∈ logger (create_domain_groups global_config domains hass).2
       ∧ ∀ entities,
           domain_group_task global_config domain entities
             ∉ scheduled_groups global_config d domains).
Proof.
  intros Hdata. rewrite (create_domain_groups_run global_config d) by done.
  cbn [fst snd hass_tasks logger].
  split; [reflexivity|]. split; [reflexivity|]. split; [reflexivity|]. split.
  - intros domain entities Hin Hsome.
    apply elem_of_app. right. unfold scheduled_groups.
    apply list_elem_of_omap. exists domain. split; [done|]. by rewrite Hsome.
  - intros domain Hin Hnone. split.
    + apply elem_of_app. right. apply list_elem_of_further.
      unfold logged_errors. apply list_elem_of_omap.
      exists domain. split; [done|]. by rewrite Hnone.
    + intros entities Hsched. unfold scheduled_groups in Hsched.
      apply list_elem_of_omap in Hsched as (domain' & _ & Htask).
      destruct (domain_entities d !! domain') as [entities'|] eqn:Hdomain';
        [|discriminate].
      cbn in Htask. unfold domain_group_task in Htask.
      injection Htask as Hentities Hname. subst domain'. congruence.
Qed.

Lemma create_domain_groups_isolates_missing_domains_witness :
  (create_domain_groups ∅ ["light"; "vacuum"; "switch"] lights_and_switches).1 = Ok tt
  ∧ hass_tasks
      (create_domain_groups ∅ ["light"; "vacuum"; "switch"] lights_and_switches).2 =
      [ domain_group_task ∅ "light" ["sensor.lamp_power"];
        domain_group_task ∅ "switch" ["sensor.plug_power"] ]
  ∧ logger
      (create_domain_groups ∅ ["light"; "vacuum"; "switch"] lights_and_switches).2 =
      [ (DEBUG, "Setting up domain based group sensors..");
        no_entities_error "vacuum" ].
Proof.
  pose proof (create_domain_groups_isolates_missing_domains
                ∅ _ ["light"; "vacuum"; "switch"] lights_and_switches eq_refl)
    as (Hret & Htasks & Hlog & _).
  split; [exact Hret|]. split; [exact Htasks | exact Hlog].
Defined.

(** ** [async_unload_entry] *)

Lemma occurrences_cons (x y : string) (l : list string) :
  occurrences x (y :: l) =
  if bool_decide (y = x) then S (occurrences x l) else occurrences x l.
Proof.
  unfold occurrences. rewrite filter_cons.
  destruct (decide (y = x)) as [Heq|Hne].
  - by rewrite bool_decide_eq_true_2.
  - by rewrite bool_decide_eq_false_2.
Qed.

Lemma occurrences_absent (x : string) (l : list string) :
  x ∉ l → occurrences x l = 0%nat.
Proof.
  induction l as [|y l IH]; intros Hnotin; [reflexivity|].
  rewrite occurrences_cons. apply not_elem_of_cons in Hnotin as [Hne Hnotin].
  rewrite bool_decide_eq_false_2 by congruence. auto.
Qed.

(** [remove] raises exactly when the value does not occur. *)
Lemma list_remove_None (x : string) (l : list string) :
  list_remove x l = None ↔ x ∉ l.
Proof.
  induction l as [|y l IH]; cbn.
  - split; [intros _; apply not_elem_of_nil | done].
  - destruct (bool_decide (y = x)) eqn:Hyx.
    + apply bool_decide_eq_true in Hyx as ->.
      split; [discriminate|]. intros Hnotin. exfalso. apply Hnotin. left.
    + apply bool_decide_eq_false in Hyx.
      destruct (list_remove x l) as [r|].
      * split; [discriminate|]. intros Hnotin.
        apply not_elem_of_cons in Hnotin as [_ Hnotin].
        apply IH in Hnotin. discriminate.
      * split; [|done]. intros _. apply not_elem_of_cons. split; [congruence|].
        by apply IH.
Qed.

(** [remove] drops one occurrence of the value and nothing else. *)
Lemma list_remove_Some (x : string) (l r : list string) :
  list_remove x l = Some r →
  S (occurrences x r) = occurrences x l
  ∧ (∀ y, y ≠ x → occurrences y r = occurrences y l)
  ∧ S (length r) = length l
  ∧ sublist r l.
Proof.
  revert r. induction l as [|z l IH]; intros r; cbn [list_remove]; [discriminate|].
  destruct (bool_decide (z = x)) eqn:Hzx.
  - apply bool_decide_eq_true in Hzx as ->. intros [= <-].
    split; [|split; [|split]].
    + rewrite occurrences_cons. by rewrite bool_decide_eq_true_2.
    + intros y Hne. rewrite occurrences_cons.
      by rewrite bool_decide_eq_false_2 by congruence.
    + reflexivity.
    + by apply sublist_cons_r; left.
  - apply bool_decide_eq_false in Hzx.
    destruct (list_remove x l) as [r'|] eqn:Hrem; [|discriminate].
    intros [= <-]. destruct (IH r' eq_refl) as (Hx & Hother & Hlen & Hsub).
    split; [|split; [|split]].
    + rewrite !occurrences_cons. rewrite bool_decide_eq_false_2 by done. done.
    + intros y Hne. rewrite !occurrences_cons.
      destruct (bool_decide (z = y)); [f_equal|]; by apply Hother.
    + cbn. by rewrite Hlen.
    + by apply sublist_skip.
Qed.

Lemma set_data_same (d : PowercalcData) hass :
  hass_data hass = Some d →
  (set_data (with_used_unique_ids d (used_unique_ids d)) hass).2 = hass.
Proof. destruct hass, d. cbn. by intros ->. Qed.

(** C10: when the platforms of an entry unload, [async_unload_entry] returns
    [True] whether or not the entry's unique id is in the list of used unique
    ids; the list it leaves has one occurrence less of that id if it was
    there and is the same list otherwise, every other id occurring as often
    as before and in the same order. *)
Theorem async_unload_entry_tolerates_absent_id
    (async_unload_platforms : ConfigEntry → list Platform → M bool)
    (config_entry : ConfigEntry) hass hass1 d :
  async_unload_platforms config_entry PLATFORMS hass = (Ok true, hass1) →
  hass_data hass1 = Some d →
  ∃ ids,
    async_unload_entry async_unload_platforms config_entry hass =
      (Ok true, (set_data (with_used_unique_ids d ids) hass1).2)
    ∧ (∀ x, unique_id config_entry = Some x → x ∈ used_unique_ids d →
            S (occurrences x ids) = occurrences x (used_unique_ids d))
    ∧ (∀ x, unique_id config_entry = Some x → x ∉ used_unique_ids d →
            ids = used_unique_ids d)
    ∧ (unique_id config_entry = None → ids = used_unique_ids d)
    ∧ (∀ y, unique_id config_entry ≠ Some y →
            occurrences y ids = occurrences y (used_unique_ids d))
    ∧ (length (used_unique_ids d) ≤ S (length ids))%nat
    ∧ sublist ids (used_unique_ids d).
Proof.
  intros Hunload Hdata.
  unfold async_unload_entry, bind. rewrite Hunload.
  unfold get_data. rewrite Hdata.
  destruct (remove_unique_id (unique_id config_entry) (used_unique_ids d))
    as [ids|] eqn:Hrem.
  - exists ids. split; [reflexivity|].
    unfold remove_unique_id in Hrem.
    destruct (unique_id config_entry) as [uid|]; [|discriminate].
    destruct (list_remove_Some _ _ _ Hrem) as (Hx & Hother & Hlen & Hsub).
    split; [by intros x [= <-] _|].
    split.
    { intros x [= <-] Hnotin. apply list_remove_None in Hnotin. congruence. }
    split; [discriminate|].
    split; [intros y Hne; apply Hother; congruence|].
    split; [lia | done].
  - exists (used_unique_ids d). split.
    { unfold ret. by rewrite set_data_same. }
    unfold remove_unique_id in Hrem.
    split.
    { intros x Huid Hin. rewrite Huid in Hrem.
      apply list_remove_None in Hrem. done. }
    repeat split; auto.
Qed.

Lemma async_unload_entry_tolerates_absent_id_witness :
  hass_data lights_and_switches =
    Some {| calculator_factory := PowerCalculatorStrategyFactory;
            domain_config := ∅;
            configured_entities := ∅;
            domain_entities :=
              <["light" := ["sensor.lamp_power"] ]>
                (<["switch" := ["sensor.plug_power"] ]> ∅);
            discovered_entities := ∅;
            used_unique_ids := ["lamp"; "plug"; "lamp"] |}
  ∧ ∃ ids,
      (async_unload_entry (λ _ _, ret true)
         {| entry_id := "e1"; unique_id := Some "lamp"; state := LOADED;
            data := {| sensor_type := Some VIRTUAL_POWER; group := None;
                       member_sensors := [] |} |}
         lights_and_switches).1 = Ok true
      ∧ S (occurrences "lamp" ids) = occurrences "lamp" ["lamp"; "plug"; "lamp"]
      ∧ occurrences "plug" ids = occurrences "plug" ["lamp"; "plug"; "lamp"].
Proof.
  split; [reflexivity|].
  destruct (async_unload_entry_tolerates_absent_id (λ _ _, ret true)
              {| entry_id := "e1"; unique_id := Some "lamp"; state := LOADED;
                 data := {| sensor_type := Some VIRTUAL_POWER; group := None;
                            member_sensors := [] |} |}
              lights_and_switches lights_and_switches _ eq_refl eq_refl)
    as (ids & Hrun & Hpresent & _ & _ & Hother & _).
  exists ids. split; [by rewrite Hrun|]. split.
  - apply (Hpresent "lamp" eq_refl). cbn. left.
  - apply (Hother "plug"). cbn. discriminate.
Defined.
